(** * wishing_star.OpenAIHandler: per-user chat ledgers behind a global rate gate

    A shallow embedding of [src/wishing_star/OpenAIHandler.py].

    - Python [int] is unbounded, so timestamps and user ids are [Z].
    - A chat turn is the two-key dictionary [{"role": r, "content": c}]; it is
      a record with two string fields.
    - [chat_history_db : Dict[int, UserChatHistory]] is a [gmap Z].  The
      dictionary holds references: a method called on [chat_history_db[uid]]
      mutates the stored object, which the embedding renders by writing the
      updated record back under the same key.
    - A raised Python exception does not roll back earlier mutations, so every
      computation returns its final state next to its outcome.
    - [get_current_ts] (module [wishing_star.utils]) and
      [openai.ChatCompletion.create] live outside the file; both are oracles
      of the surrounding [World].  The logger and the sampling temperature
      (the constant [0.1], forwarded to the service untouched) have no effect
      on the handler's state and are left out. *)

From Stdlib Require Import ZArith Lia.
From stdpp Require Import base numbers option list gmap strings.

Local Open Scope Z_scope.

(** * Part I: the program *)

(** ** Module constants *)

Definition CHAT_RESET_TS : Z := 10 * 60 * 1000.

(** Only the first literal is bound: the two string literals on the following
    source lines are expression statements of their own (the assignment is
    neither parenthesised nor continued). *)
Definition OPENAI_SYS_INIT_MESSAGE : string :=
  "Now, you are playing the role as the Pokemon `Jirachi` and you will".

(** [s.startswith(p)], as a proposition. *)
Definition starts_with (p s : string) : Prop := exists rest, s = p +:+ rest.

(** ** Turns *)

Record Turn : Type := mkTurn { role : string; content : string }.

Definition system_turn : Turn :=
  {| role := "system"; content := OPENAI_SYS_INIT_MESSAGE |}.
Definition user_turn (msg : string) : Turn :=
  {| role := "user"; content := msg |}.
Definition assistant_turn (response : string) : Turn :=
  {| role := "assistant"; content := response |}.

(** ** UserChatHistory *)

Module UserChatHistory.

Record t : Type := mk {
  uid : Z;
  last_communicate_ts : Z;
  chat_history : list Turn
}.

(** [__init__]; [now] is the value [get_current_ts()] returns inside it. *)
Definition init (uid : Z) (now : Z) : t :=
  {| uid := uid;
     last_communicate_ts := now;
     chat_history := [system_turn] |}.

(** [if not msg.startswith("Jirachi, "): msg = "Jirachi, " + msg].
    The literal is ASCII, so a test on UTF-8 bytes and one on code points
    agree. *)
Definition normalize (msg : string) : string :=
  if String.prefix "Jirachi, " msg then msg else "Jirachi, " +:+ msg.

(** [get_current_chat]: the object after the call.  The list the method
    returns is the object's own [chat_history] (see [current_chat]). *)
Definition get_current_chat (self : t) (msg : string) (request_ts : Z) : t :=
  let history :=
    if last_communicate_ts self - request_ts >? CHAT_RESET_TS
    then take 1 (chat_history self)
    else chat_history self in
  {| uid := uid self;
     last_communicate_ts := last_communicate_ts self;
     chat_history := history ++ [user_turn (normalize msg)] |}.

(** The value [get_current_chat] returns. *)
Definition current_chat (self : t) (msg : string) (request_ts : Z) : list Turn :=
  chat_history (get_current_chat self msg request_ts).

(** [update_response] *)
Definition update_response (self : t) (response : string) (response_ts : Z) : t :=
  {| uid := uid self;
     last_communicate_ts := response_ts;
     chat_history := chat_history self ++ [assistant_turn response] |}.

(** The two mutators, as data, to speak about arbitrary call sequences. *)
Inductive op : Type :=
| GetCurrentChat (msg : string) (request_ts : Z)
| UpdateResponse (response : string) (response_ts : Z).

Definition apply (self : t) (o : op) : t :=
  match o with
  | GetCurrentChat msg request_ts => get_current_chat self msg request_ts
  | UpdateResponse response response_ts => update_response self response response_ts
  end.

Definition run (self : t) (ops : list op) : t := fold_left apply ops self.

(** The ledger invariant: the history starts with the system turn. *)
Definition inv (self : t) : Prop :=
  exists rest, chat_history self = system_turn :: rest.

End UserChatHistory.

(** ** Exceptions and the completion service *)

Inductive Key : Type := KStr (k : string) | KInt (k : Z).

Inductive Exn : Type :=
| FrequentRequestRateException (text : string)  (* wishing_star.Exceptions *)
| Exception (text : string)                     (* the builtin base class *)
| IndexError                                    (* [response["choices"][0]] on an empty list *)
| KeyError (key : Key)                          (* a dictionary subscript that misses *)
| ServiceError (text : string).                 (* whatever the openai client raises *)

Record Usage : Type := mkUsage { prompt_tokens : Z; completion_tokens : Z }.

(** What [chat] reads from the service's answer: the list under ["choices"],
    each entry reduced to its [["message"]["content"]] ([None] is Python's
    [None]), and the dictionary under ["usage"], [None] when the key is not
    there.  An answer is taken to carry the keys ["choices"], ["message"]
    and ["content"], and both counters inside ["usage"]; the [KeyError] a
    subscript raises when one of those is missing is not part of the
    model. *)
Record Response : Type := mkResponse {
  choices : list (option string);
  usage : option Usage
}.

Inductive Completion : Type :=
| ServiceRaises (text : string)
| ServiceReturns (response : Response).

(** The environment of a handler.  [get_current_ts_at n] is what the [n]-th
    call of [get_current_ts()] returns; [ChatCompletion_create n model messages]
    is the outcome of a request issued after [n] clock readings. *)
Record World : Type := mkWorld {
  get_current_ts_at : nat -> Z;
  ChatCompletion_create : nat -> string -> list Turn -> Completion
}.

(** ** OpenAIHandler *)

Module OpenAIHandler.

Record t : Type := mk {
  last_success_request_ts : Z;
  minimum_request_period : Z;
  model : string;
  chat_history_db : gmap Z UserChatHistory.t
}.

(** [__init__] *)
Definition init (using_gpt_4 : bool) : t :=
  {| last_success_request_ts := 0;
     minimum_request_period := 5 * 1000;
     model := if using_gpt_4 then "gpt-4" else "gpt-3.5-turbo";
     chat_history_db := ∅ |}.

(** The running program: the handler object and the number of clock
    readings taken so far. *)
Record Runtime : Type := mkRuntime { ticks : nat; self : t }.

Inductive Result (A : Type) : Type :=
| Returned (a : A)
| Raised (e : Exn).
Arguments Returned {A} a.
Arguments Raised {A} e.

(** State and exceptions; the state survives a raise. *)
Definition M (A : Type) : Type := Runtime -> Result A * Runtime.

Definition ret {A} (a : A) : M A := fun rt => (Returned a, rt).
Definition raise {A} (e : Exn) : M A := fun rt => (Raised e, rt).
Definition bind {A B} (m : M A) (k : A -> M B) : M B :=
  fun rt =>
    match m rt with
    | (Returned a, rt') => k a rt'
    | (Raised e, rt') => (Raised e, rt')
    end.

Notation "'let*' x ':=' m 'in' k" := (bind m (fun x => k))
  (at level 10, x name, m at level 100, k at level 200).
Notation "m ';;' k" := (bind m (fun _ => k))
  (at level 100, k at level 200, right associativity).

Definition get_self : M t := fun rt => (Returned (self rt), rt).
Definition put_self (s : t) : M unit :=
  fun rt => (Returned tt, {| ticks := ticks rt; self := s |}).

Definition get_current_ts (w : World) : M Z :=
  fun rt => (Returned (get_current_ts_at w (ticks rt)),
             {| ticks := S (ticks rt); self := self rt |}).

Definition with_db (s : t) (db : gmap Z UserChatHistory.t) : t :=
  {| last_success_request_ts := last_success_request_ts s;
     minimum_request_period := minimum_request_period s;
     model := model s;
     chat_history_db := db |}.

Definition with_last_success (s : t) (ts : Z) : t :=
  {| last_success_request_ts := ts;
     minimum_request_period := minimum_request_period s;
     model := model s;
     chat_history_db := chat_history_db s |}.

(** [self.last_success_request_ts = ts] *)
Definition set_last_success_request_ts (ts : Z) : M unit :=
  let* s := get_self in
  put_self (with_last_success s ts).

(** [self.chat_history_db[uid] = h], also the write-back of a mutation made
    through a reference to the stored object. *)
Definition store (uid : Z) (h : UserChatHistory.t) : M unit :=
  let* s := get_self in
  put_self (with_db s (<[uid := h]> (chat_history_db s))).

(** [self.chat_history_db[uid]] *)
Definition load (uid : Z) : M UserChatHistory.t :=
  let* s := get_self in
  match chat_history_db s !! uid with
  | Some h => ret h
  | None => raise (KeyError (KInt uid))
  end.

(** [if uid not in self.chat_history_db:
       self.chat_history_db[uid] = UserChatHistory(uid)] *)
Definition ensure_history (w : World) (uid : Z) : M unit :=
  let* s := get_self in
  match chat_history_db s !! uid with
  | Some _ => ret tt
  | None =>
      let* now := get_current_ts w in
      store uid (UserChatHistory.init uid now)
  end.

(** [openai.ChatCompletion.create(model=..., messages=..., temperature=...)] *)
Definition create (w : World) (messages : list Turn) : M Response :=
  fun rt =>
    match ChatCompletion_create w (ticks rt) (model (self rt)) messages with
    | ServiceRaises text => (Raised (ServiceError text), rt)
    | ServiceReturns response => (Returned response, rt)
    end.

(** [response["choices"][0]["message"]["content"]] *)
Definition first_content (response : Response) : M (option string) :=
  match choices response with
  | c :: _ => ret c
  | [] => raise IndexError
  end.

(** [response["usage"]["prompt_tokens"]] and
    [response["usage"]["completion_tokens"]] *)
Definition usage_counters (response : Response) : M (Z * Z) :=
  match usage response with
  | Some u => ret (prompt_tokens u, completion_tokens u)
  | None => raise (KeyError (KStr "usage"))
  end.

Definition too_frequent : Exn :=
  FrequentRequestRateException "OpenAIHandler: Requests Too Frequent".
Definition none_response : Exn :=
  Exception "None Response received from OpenAI Chat Request.".

(** [chat] *)
Definition chat (w : World) (msg : string) (uid : Z) : M string :=
  let* request_ts := get_current_ts w in
  let* s := get_self in
  if request_ts - last_success_request_ts s <=? minimum_request_period s
  then raise too_frequent
  else
    ensure_history w uid ;;
    let* chat_history := load uid in
    (* the argument [messages=] is evaluated, and the stored object
       mutated, before the request goes out *)
    let chat_history := UserChatHistory.get_current_chat chat_history msg request_ts in
    store uid chat_history ;;
    let* response := create w (UserChatHistory.chat_history chat_history) in
    let* response_ts := get_current_ts w in
    let* response_msg := first_content response in
    match response_msg with
    | None => raise none_response
    | Some response_msg =>
        let* _ := usage_counters response in
        set_last_success_request_ts response_ts ;;
        store uid (UserChatHistory.update_response chat_history response_msg response_ts) ;;
        ret response_msg
    end.

(** ** Notions the statements below are phrased with *)

(** The rate test of [chat], on the request timestamp the call reads. *)
Definition gate_closed (w : World) (rt : Runtime) : Prop :=
  get_current_ts_at w (ticks rt) - last_success_request_ts (self rt)
    <= minimum_request_period (self rt).

(** The object [chat] binds to its local [chat_history]: the stored one,
    or the one made on the spot, whose constructor takes the clock reading
    that follows the request's. *)
Definition working_history (w : World) (uid : Z) (rt : Runtime) : UserChatHistory.t :=
  match chat_history_db (self rt) !! uid with
  | Some h => h
  | None => UserChatHistory.init uid (get_current_ts_at w (S (ticks rt)))
  end.

(** Clock readings taken by the time the request goes out. *)
Definition ticks_at_request (uid : Z) (rt : Runtime) : nat :=
  match chat_history_db (self rt) !! uid with
  | Some _ => S (ticks rt)
  | None => S (S (ticks rt))
  end.

(** The handler once the user turn is recorded and before the service is
    asked. *)
Definition pending (w : World) (msg : string) (uid : Z) (rt : Runtime) : t :=
  with_db (self rt)
    (<[uid := UserChatHistory.get_current_chat (working_history w uid rt) msg
                (get_current_ts_at w (ticks rt))]>
       (chat_history_db (self rt))).

(** The handler after a reply [response_msg] has been recorded. *)
Definition answered (w : World) (msg : string) (uid : Z) (rt : Runtime)
    (response_msg : string) : t :=
  let response_ts := get_current_ts_at w (ticks_at_request uid rt) in
  with_db (with_last_success (self rt) response_ts)
    (<[uid := UserChatHistory.update_response
                (UserChatHistory.get_current_chat (working_history w uid rt) msg
                   (get_current_ts_at w (ticks rt)))
                response_msg response_ts]>
       (chat_history_db (self rt))).

(** What the service answers to this call. *)
Definition completion (w : World) (msg : string) (uid : Z) (rt : Runtime) : Completion :=
  ChatCompletion_create w (ticks_at_request uid rt) (model (self rt))
    (UserChatHistory.current_chat (working_history w uid rt) msg
       (get_current_ts_at w (ticks rt))).

End OpenAIHandler.

(** ** Concrete runs *)

Module Scenario.

(** A clock that starts at 10 s and advances one second per reading. *)
Definition clock (n : nat) : Z := 10000 + 1000 * Z.of_nat n.

(** A service that answers every request with the same first content. *)
Definition replying (c : option string) : World :=
  {| get_current_ts_at := clock;
     ChatCompletion_create := fun _ _ _ =>
       ServiceReturns {| choices := [c];
                         usage := Some {| prompt_tokens := 12; completion_tokens := 3 |} |} |}.

(** A handler just constructed. *)
Definition fresh : OpenAIHandler.Runtime :=
  {| OpenAIHandler.ticks := 0; OpenAIHandler.self := OpenAIHandler.init false |}.

(** The same handler after user 1 has had one exchange. *)
Definition after_one_chat : OpenAIHandler.Runtime :=
  snd (OpenAIHandler.chat (replying (Some "hi")) "yo" 1 fresh).

(** A ledger after one exchange, last active at 1000500 ms. *)
Definition talked : UserChatHistory.t :=
  UserChatHistory.run (UserChatHistory.init 7 1000000)
    [UserChatHistory.GetCurrentChat "hello" 1000000;
     UserChatHistory.UpdateResponse "hi!" 1000500].

End Scenario.

(** ** The life of a handler *)

Module Lifecycle.
Import OpenAIHandler.

(** A clock that never runs backwards. *)
Definition monotone (w : World) : Prop :=
  forall n m : nat, (n <= m)%nat -> get_current_ts_at w n <= get_current_ts_at w m.

(** The states a handler built by [__init__] goes through: [chat] is its
    only method, and the rest of the program may read the clock in between. *)
Inductive reachable (w : World) (using_gpt_4 : bool) : Runtime -> Prop :=
| reachable_init (n : nat) :
    reachable w using_gpt_4 {| ticks := n; self := init using_gpt_4 |}
| reachable_tick (rt : Runtime) :
    reachable w using_gpt_4 rt ->
    reachable w using_gpt_4 {| ticks := S (ticks rt); self := self rt |}
| reachable_chat (rt : Runtime) (msg : string) (uid : Z) :
    reachable w using_gpt_4 rt ->
    reachable w using_gpt_4 (snd (chat w msg uid rt)).

(** A turn of the dialogue proper: a user turn that carries the prefix, or
    an assistant turn. *)
Definition dialogue_turn (t : Turn) : Prop :=
  (role t = "user" /\ starts_with "Jirachi, " (content t)) \/ role t = "assistant".

(** A ledger as [chat] keeps it under key [k]. *)
Definition well_formed (k : Z) (h : UserChatHistory.t) : Prop :=
  UserChatHistory.uid h = k /\
  exists rest,
    UserChatHistory.chat_history h = system_turn :: rest /\
    Forall dialogue_turn rest.

(** The ledger's timestamp is a reading the clock has already given. *)
Definition stamped (w : World) (rt : Runtime) (h : UserChatHistory.t) : Prop :=
  exists n : nat,
    (n < ticks rt)%nat /\
    UserChatHistory.last_communicate_ts h = get_current_ts_at w n.

Definition handler_inv (w : World) (rt : Runtime) : Prop :=
  forall k h,
    chat_history_db (self rt) !! k = Some h ->
    well_formed k h /\ stamped w rt h.

(** The turns a call past the rate test adds to the ledger. *)
Definition added_turns (msg : string) (r : Result string) : list Turn :=
  user_turn (UserChatHistory.normalize msg) ::
  match r with
  | Returned reply => [assistant_turn reply]
  | Raised _ => []
  end.

End Lifecycle.

Module Episodes.

(** A service that is down: every request raises. *)
Definition down : World :=
  {| get_current_ts_at := Scenario.clock;
     ChatCompletion_create := fun _ _ _ => ServiceRaises "timeout" |}.

(** A service that is down for the request issued after two clock readings,
    the one a fresh handler's first call makes, and answers later ones; its
    clock advances ten seconds per reading. *)
Definition flaky : World :=
  {| get_current_ts_at := fun n => 10000 + 10000 * Z.of_nat n;
     ChatCompletion_create := fun n _ _ =>
       if (n <=? 2)%nat then ServiceRaises "timeout"
       else ServiceReturns
              {| choices := [Some "here I am"];
                 usage := Some {| prompt_tokens := 20; completion_tokens := 4 |} |} |}.

(** The handler of [Scenario.after_one_chat], met again after the clock has
    been read up to its thousandth reading: user 1 has been silent for more
    than sixteen minutes. *)
Definition idle : OpenAIHandler.Runtime :=
  {| OpenAIHandler.ticks := 1000;
     OpenAIHandler.self := OpenAIHandler.self Scenario.after_one_chat |}.

End Episodes.

(** * Part II: properties *)

(** ** Strings *)

Lemma append_String a (p rest : string) :
  String a p +:+ rest = String a (p +:+ rest).
Proof. reflexivity. Qed.

(** The boolean test is [startswith]. *)
Lemma prefix_starts_with (p s : string) :
  String.prefix p s = true <-> starts_with p s.
Proof.
  unfold starts_with. revert s.
  induction p as [|a p IH]; intros s.
  - split; [intros _; now exists s | now destruct s].
  - destruct s as [|b s]; simpl.
    + split; [discriminate | intros [rest H]; discriminate].
    + destruct (Ascii.ascii_dec a b) as [->|Hab].
      * rewrite IH.
        split; intros [rest H]; exists rest;
          rewrite append_String in *; congruence.
      * split; [discriminate|].
        intros [rest H]. rewrite append_String in H. congruence.
Qed.

Lemma prefix_false_not_starts_with (p s : string) :
  String.prefix p s = false <-> ~ starts_with p s.
Proof.
  rewrite <- prefix_starts_with.
  destruct (String.prefix p s); split; congruence.
Qed.

(** ** The ledger *)

Module LedgerFacts.
Import UserChatHistory.

Lemma normalize_prefixed msg :
  starts_with "Jirachi, " msg -> normalize msg = msg.
Proof.
  intros H. apply prefix_starts_with in H.
  unfold normalize. now rewrite H.
Qed.

Lemma normalize_unprefixed msg :
  ~ starts_with "Jirachi, " msg -> normalize msg = "Jirachi, " +:+ msg.
Proof.
  intros H. apply prefix_false_not_starts_with in H.
  unfold normalize. now rewrite H.
Qed.

(** Normalising never leaves a message without the prefix. *)
Lemma normalize_starts_with msg : starts_with "Jirachi, " (normalize msg).
Proof.
  unfold normalize.
  destruct (String.prefix "Jirachi, " msg) eqn:E.
  - now apply prefix_starts_with.
  - now exists msg.
Qed.

Lemma normalize_idempotent msg : normalize (normalize msg) = normalize msg.
Proof. apply normalize_prefixed, normalize_starts_with. Qed.

(** The history after [get_current_chat], whatever the object looked like. *)
Lemma get_current_chat_history self msg request_ts :
  chat_history (get_current_chat self msg request_ts) =
  (if last_communicate_ts self - request_ts >? CHAT_RESET_TS
   then take 1 (chat_history self) else chat_history self)
  ++ [user_turn (normalize msg)].
Proof. reflexivity. Qed.

Lemma get_current_chat_last self msg request_ts :
  last (chat_history (get_current_chat self msg request_ts)) =
  Some (user_turn (normalize msg)).
Proof. rewrite get_current_chat_history. apply last_snoc. Qed.

Lemma inv_init uid now : inv (init uid now).
Proof. now exists []. Qed.

Lemma inv_get_current_chat self msg request_ts :
  inv self -> inv (get_current_chat self msg request_ts).
Proof.
  intros [rest H]. unfold inv.
  rewrite get_current_chat_history, H.
  destruct (_ >? _); simpl; eauto.
Qed.

Lemma inv_update_response self response response_ts :
  inv self -> inv (update_response self response response_ts).
Proof.
  intros [rest H]. unfold inv, update_response. simpl.
  rewrite H. simpl. eauto.
Qed.

Lemma inv_apply self o : inv self -> inv (apply self o).
Proof.
  destruct o; [apply inv_get_current_chat | apply inv_update_response].
Qed.

Lemma inv_run ops : forall self, inv self -> inv (run self ops).
Proof.
  unfold run.
  induction ops as [|o ops IH]; intros self H; simpl; [exact H|].
  apply IH, inv_apply, H.
Qed.

Lemma inv_talked : inv Scenario.talked.
Proof. apply inv_run, inv_init. Qed.

(** C3: when [last_communicate_ts - request_ts] exceeds [CHAT_RESET_TS]
    (600000 ms), [get_current_chat] keeps the first turn only and then
    appends the user turn; in a ledger that satisfies its invariant what is
    kept is the system turn, a list of length one.  Otherwise the old history
    is kept whole and the user turn is appended to it. *)
Theorem get_current_chat_reset self msg request_ts :
  CHAT_RESET_TS = 600000 /\
  (last_communicate_ts self - request_ts > CHAT_RESET_TS ->
     chat_history (get_current_chat self msg request_ts) =
       take 1 (chat_history self) ++ [user_turn (normalize msg)] /\
     (inv self ->
        take 1 (chat_history self) = [system_turn] /\
        chat_history (get_current_chat self msg request_ts) =
          [system_turn; user_turn (normalize msg)])) /\
  (~ last_communicate_ts self - request_ts > CHAT_RESET_TS ->
     chat_history (get_current_chat self msg request_ts) =
       chat_history self ++ [user_turn (normalize msg)]).
Proof.
  rewrite get_current_chat_history.
  split; [reflexivity|].
  split; intros Hcmp.
  - apply Z.gtb_gt in Hcmp. rewrite Hcmp.
    split; [reflexivity|].
    intros [rest H]. rewrite H. now split.
  - destruct (_ >? _) eqn:E; [|reflexivity].
    apply Z.gtb_gt in E. contradiction.
Qed.

Lemma get_current_chat_reset_witness :
  inv Scenario.talked /\
  chat_history (get_current_chat Scenario.talked "again" 400000) =
    [system_turn; user_turn "Jirachi, again"] /\
  chat_history (get_current_chat Scenario.talked "again" 400500) =
    [system_turn; user_turn "Jirachi, hello"; assistant_turn "hi!";
     user_turn "Jirachi, again"].
Proof.
  split; [exact inv_talked|].
  split.
  - refine (proj2 (proj2 (proj1 (proj2
      (get_current_chat_reset Scenario.talked "again" 400000)) _) inv_talked)).
    simpl. unfold CHAT_RESET_TS. lia.
  - refine (proj2 (proj2
      (get_current_chat_reset Scenario.talked "again" 400500)) _).
    simpl. unfold CHAT_RESET_TS. lia.
Defined.

(** C4: the user turn [get_current_chat] stores is the last turn of the
    history; its content is ["Jirachi, "] followed by the message when the
    message does not start with that prefix, and the message itself,
    untouched, when it does. *)
Theorem get_current_chat_prefix self msg request_ts :
  (~ starts_with "Jirachi, " msg ->
     last (chat_history (get_current_chat self msg request_ts)) =
       Some {| role := "user"; content := "Jirachi, " +:+ msg |}) /\
  (starts_with "Jirachi, " msg ->
     last (chat_history (get_current_chat self msg request_ts)) =
       Some {| role := "user"; content := msg |}).
Proof.
  rewrite get_current_chat_last.
  split; intros H.
  - now rewrite normalize_unprefixed.
  - now rewrite normalize_prefixed.
Qed.

Lemma get_current_chat_prefix_witness :
  last (chat_history (get_current_chat (init 7 0) "grant a wish" 10)) =
    Some {| role := "user"; content := "Jirachi, grant a wish" |} /\
  last (chat_history (get_current_chat (init 7 0) "Jirachi, grant a wish" 10)) =
    Some {| role := "user"; content := "Jirachi, grant a wish" |}.
Proof.
  split.
  - apply (proj1 (get_current_chat_prefix (init 7 0) "grant a wish" 10)).
    apply prefix_false_not_starts_with. reflexivity.
  - apply (proj2 (get_current_chat_prefix (init 7 0) "Jirachi, grant a wish" 10)).
    apply prefix_starts_with. reflexivity.
Defined.



(** C8: [update_response] sets [last_communicate_ts] to the response
    timestamp and appends the single turn
    [{"role": "assistant", "content": response}]: the new history is the
    old one, unchanged, followed by that turn.  The owner is untouched. *)
Theorem update_response_appends self response response_ts :
  last_communicate_ts (update_response self response response_ts) = response_ts /\
  chat_history (update_response self response response_ts) =
    chat_history self ++ [{| role := "assistant"; content := response |}] /\
  length (chat_history (update_response self response response_ts)) =
    S (length (chat_history self)) /\
  take (length (chat_history self))
       (chat_history (update_response self response response_ts)) =
    chat_history self /\
  uid (update_response self response response_ts) = uid self.
Proof.
  unfold update_response; simpl.
  repeat split.
  - rewrite length_app. simpl. lia.
  - now rewrite take_app_length.
Qed.

(** C9: [get_current_chat] changes the history only:
    [last_communicate_ts] and [uid] are what they were. *)
Theorem get_current_chat_frame self msg request_ts :
  last_communicate_ts (get_current_chat self msg request_ts) =
    last_communicate_ts self /\
  uid (get_current_chat self msg request_ts) = uid self.
Proof. split; reflexivity. Qed.

End LedgerFacts.

(** ** The handler *)

Module HandlerFacts.
Import OpenAIHandler.

Lemma gate_closed_dec w rt : {gate_closed w rt} + {~ gate_closed w rt}.
Proof. unfold gate_closed. apply Z_le_dec. Qed.

(** [chat] stopped by the rate test. *)
Lemma chat_closed w msg uid rt :
  gate_closed w rt ->
  chat w msg uid rt =
    (Raised too_frequent, {| ticks := S (ticks rt); self := self rt |}).
Proof.
  unfold gate_closed. intros H. apply Z.leb_le in H.
  unfold chat, bind, get_current_ts, get_self; simpl.
  now rewrite H.
Qed.

(** [chat] past the rate test, one branch per way out. *)
Lemma chat_open w msg uid rt :
  ~ gate_closed w rt ->
  chat w msg uid rt =
    match completion w msg uid rt with
    | ServiceRaises text =>
        (Raised (ServiceError text),
         {| ticks := ticks_at_request uid rt; self := pending w msg uid rt |})
    | ServiceReturns response =>
        let rt' := {| ticks := S (ticks_at_request uid rt);
                      self := pending w msg uid rt |} in
        match choices response with
        | [] => (Raised IndexError, rt')
        | None :: _ => (Raised none_response, rt')
        | Some response_msg :: _ =>
            match usage response with
            | None => (Raised (KeyError (KStr "usage")), rt')
            | Some _ =>
                (Returned response_msg,
                 {| ticks := S (ticks_at_request uid rt);
                    self := answered w msg uid rt response_msg |})
            end
        end
    end.
Proof.
  unfold gate_closed. intros H.
  apply Z.leb_nle in H.
  unfold completion, answered, pending, working_history, ticks_at_request,
    UserChatHistory.current_chat.
  unfold chat, bind, get_current_ts, get_self; simpl.
  rewrite H.
  unfold ensure_history, load, store, create, first_content, usage_counters,
    set_last_success_request_ts, put_self, bind, get_current_ts, get_self,
    ret, raise, with_db, with_last_success; simpl.
  destruct (chat_history_db (self rt) !! uid) as [h|] eqn:E; simpl;
    rewrite ?lookup_insert_eq, ?E; simpl; rewrite ?insert_insert_eq;
    (destruct (ChatCompletion_create w _ _ _) as [text|response];
     simpl; [reflexivity|]);
    (destruct (choices response) as [|[response_msg|] cs];
     simpl; [reflexivity| |reflexivity]);
    (destruct (usage response) as [u|]; simpl; [|reflexivity]);
    now rewrite ?insert_insert_eq.
Qed.

(** The ways out of [chat], read off its result. *)
Lemma chat_returned_inv w msg uid rt reply :
  fst (chat w msg uid rt) = Returned reply ->
  ~ gate_closed w rt /\
  exists response rest u,
    completion w msg uid rt = ServiceReturns response /\
    choices response = Some reply :: rest /\
    usage response = Some u /\
    snd (chat w msg uid rt) =
      {| ticks := S (ticks_at_request uid rt);
         self := answered w msg uid rt reply |}.
Proof.
  destruct (gate_closed_dec w rt) as [Hc|Ho].
  - rewrite (chat_closed _ _ _ _ Hc). discriminate.
  - rewrite (chat_open _ _ _ _ Ho). intros H. split; [exact Ho|].
    destruct (completion w msg uid rt) as [text|response]; [discriminate|].
    simpl in *.
    destruct (choices response) as [|[response_msg|] rest] eqn:Ec;
      try discriminate.
    destruct (usage response) as [u|] eqn:Eu; [|discriminate].
    simpl in H. injection H as ->.
    now exists response, rest, u.
Qed.

Lemma chat_too_frequent_inv w msg uid rt text :
  fst (chat w msg uid rt) = Raised (FrequentRequestRateException text) ->
  gate_closed w rt.
Proof.
  destruct (gate_closed_dec w rt) as [Hc|Ho]; [trivial|].
  rewrite (chat_open _ _ _ _ Ho).
  destruct (completion w msg uid rt) as [t0|response]; [discriminate|].
  simpl.
  destruct (choices response) as [|[response_msg|] rest]; try discriminate.
  destruct (usage response); discriminate.
Qed.

Lemma minimum_request_period_chat w msg uid rt :
  minimum_request_period (self (snd (chat w msg uid rt))) =
  minimum_request_period (self rt).
Proof.
  destruct (gate_closed_dec w rt) as [Hc|Ho].
  - now rewrite (chat_closed _ _ _ _ Hc).
  - rewrite (chat_open _ _ _ _ Ho).
    destruct (completion w msg uid rt) as [t0|response]; [reflexivity|].
    simpl.
    destruct (choices response) as [|[response_msg|] rest]; try reflexivity.
    destruct (usage response); reflexivity.
Qed.


(** A handler just constructed lets a request at 10 s through. *)
Lemma fresh_gate_open c : ~ gate_closed (Scenario.replying c) Scenario.fresh.
Proof. unfold gate_closed. simpl. unfold Scenario.clock. lia. Qed.

(** C1: the handler starts with a minimum request period of 5000 ms, and
    [chat] never changes it.  Whenever the request timestamp minus
    [last_success_request_ts] is at most the period, [chat] raises
    [FrequentRequestRateException], for any message and any user id.  The
    gate is the handler's, not a ledger's: after a chat that succeeded for
    one user, a chat for any user, the same or another, whose request
    timestamp is within the period of that success is refused. *)
Theorem chat_rate_gate :
  (forall using_gpt_4,
     minimum_request_period (init using_gpt_4) = 5000 /\
     last_success_request_ts (init using_gpt_4) = 0) /\
  (forall w msg uid rt,
     minimum_request_period (self (snd (chat w msg uid rt))) =
     minimum_request_period (self rt)) /\
  (forall w msg uid rt,
     get_current_ts_at w (ticks rt) - last_success_request_ts (self rt)
       <= minimum_request_period (self rt) ->
     fst (chat w msg uid rt) =
       Raised (FrequentRequestRateException "OpenAIHandler: Requests Too Frequent")) /\
  (forall w msg uid rt reply msg' uid',
     fst (chat w msg uid rt) = Returned reply ->
     get_current_ts_at w (S (ticks_at_request uid rt))
       - get_current_ts_at w (ticks_at_request uid rt)
       <= minimum_request_period (self rt) ->
     last_success_request_ts (self (snd (chat w msg uid rt))) =
       get_current_ts_at w (ticks_at_request uid rt) /\
     fst (chat w msg' uid' (snd (chat w msg uid rt))) =
       Raised (FrequentRequestRateException "OpenAIHandler: Requests Too Frequent")).
Proof.
  split; [now intros []|].
  split; [apply minimum_request_period_chat|].
  split.
  - intros w msg uid rt H. now rewrite chat_closed.
  - intros w msg uid rt reply msg' uid' Hok Hnear.
    destruct (chat_returned_inv _ _ _ _ _ Hok)
      as (_ & response & rest & u & _ & _ & _ & Hrt).
    rewrite Hrt. split; [reflexivity|].
    now rewrite chat_closed.
Qed.

Lemma chat_rate_gate_witness :
  fst (chat (Scenario.replying (Some "hi")) "yo" 1 Scenario.fresh) = Returned "hi" /\
  fst (chat (Scenario.replying (Some "hi")) "hi" 2 Scenario.after_one_chat) =
    Raised (FrequentRequestRateException "OpenAIHandler: Requests Too Frequent") /\
  fst (chat (Scenario.replying (Some "hi")) "hi" 1 Scenario.after_one_chat) =
    Raised (FrequentRequestRateException "OpenAIHandler: Requests Too Frequent").
Proof.
  destruct chat_rate_gate as (_ & _ & Hgate & Hglobal).
  split; [reflexivity|].
  split.
  - apply Hgate. vm_compute. discriminate.
  - apply (Hglobal (Scenario.replying (Some "hi")) "yo" 1 Scenario.fresh "hi" "hi" 1).
    + reflexivity.
    + vm_compute. discriminate.
Defined.

(** C10: a call of [chat] that raises [FrequentRequestRateException] leaves
    the handler as it was, ledgers, [last_success_request_ts] and all; the
    one thing that moved is the clock, read once. *)
Theorem chat_refused_unchanged w msg uid rt text :
  fst (chat w msg uid rt) = Raised (FrequentRequestRateException text) ->
  self (snd (chat w msg uid rt)) = self rt /\
  chat_history_db (self (snd (chat w msg uid rt))) = chat_history_db (self rt) /\
  last_success_request_ts (self (snd (chat w msg uid rt))) =
    last_success_request_ts (self rt) /\
  ticks (snd (chat w msg uid rt)) = S (ticks rt).
Proof.
  intros H. apply chat_too_frequent_inv in H.
  now rewrite (chat_closed _ _ _ _ H).
Qed.

Lemma chat_refused_unchanged_witness :
  self (snd (chat (Scenario.replying (Some "hi")) "hi" 2 Scenario.after_one_chat)) =
    self Scenario.after_one_chat /\
  chat_history_db
    (self (snd (chat (Scenario.replying (Some "hi")) "hi" 2 Scenario.after_one_chat)))
    !! 2 = None.
Proof.
  destruct (chat_refused_unchanged (Scenario.replying (Some "hi")) "hi" 2
              Scenario.after_one_chat "OpenAIHandler: Requests Too Frequent"
              eq_refl) as (Hself & _).
  split; [exact Hself|].
  rewrite Hself. reflexivity.
Defined.

(** C6: when [chat msg uid] returns [reply], the ledger stored for [uid]
    ends with the user turn carrying the prefixed message, followed by the
    assistant turn carrying [reply].  The prefixed message starts with
    ["Jirachi, "]: it is ["Jirachi, "] followed by [msg] when [msg] does not
    start with the prefix, and [msg] itself when it does. *)
Theorem chat_round_trip w msg uid rt reply :
  fst (chat w msg uid rt) = Returned reply ->
  exists h before prefixed,
    chat_history_db (self (snd (chat w msg uid rt))) !! uid = Some h /\
    UserChatHistory.chat_history h =
      before ++ [ {| role := "user"; content := prefixed |};
                  {| role := "assistant"; content := reply |} ] /\
    starts_with "Jirachi, " prefixed /\
    (~ starts_with "Jirachi, " msg -> prefixed = "Jirachi, " +:+ msg) /\
    (starts_with "Jirachi, " msg -> prefixed = msg).
Proof.
  intros H.
  destruct (chat_returned_inv _ _ _ _ _ H)
    as (_ & response & rest & u & _ & _ & _ & Hrt).
  rewrite Hrt. unfold answered, with_db; simpl.
  rewrite lookup_insert_eq.
  eexists _, _, (UserChatHistory.normalize msg).
  split; [reflexivity|].
  split; [simpl; now rewrite <- app_assoc|].
  split; [apply LedgerFacts.normalize_starts_with|].
  split.
  - apply LedgerFacts.normalize_unprefixed.
  - apply LedgerFacts.normalize_prefixed.
Qed.

Lemma chat_round_trip_witness :
  (exists h before,
     chat_history_db (self (snd (chat (Scenario.replying (Some "hi")) "yo" 1 Scenario.fresh)))
       !! 1 = Some h /\
     UserChatHistory.chat_history h =
       before ++ [ {| role := "user"; content := "Jirachi, yo" |};
                   {| role := "assistant"; content := "hi" |} ]) /\
  (exists h before,
     chat_history_db
       (self (snd (chat (Scenario.replying (Some "hi")) "Jirachi, yo" 1 Scenario.fresh)))
       !! 1 = Some h /\
     UserChatHistory.chat_history h =
       before ++ [ {| role := "user"; content := "Jirachi, yo" |};
                   {| role := "assistant"; content := "hi" |} ]).
Proof.
  split.
  - destruct (chat_round_trip (Scenario.replying (Some "hi")) "yo" 1 Scenario.fresh
                "hi" eq_refl)
      as (h & before & prefixed & Hh & Hhist & _ & Hadd & _).
    rewrite Hadd in Hhist
      by (apply prefix_false_not_starts_with; reflexivity).
    exists h, before. split; [exact Hh | exact Hhist].
  - destruct (chat_round_trip (Scenario.replying (Some "hi")) "Jirachi, yo" 1
                Scenario.fresh "hi" eq_refl)
      as (h & before & prefixed & Hh & Hhist & _ & _ & Hkeep).
    rewrite Hkeep in Hhist
      by (apply prefix_starts_with; reflexivity).
    exists h, before. split; [exact Hh | exact Hhist].
Defined.

(** C2, as the code has it: when the first choice's content is [None],
    [chat] raises the exception "None Response received ..."; the ledger of
    the user then holds the history [get_current_chat] left, which ends with
    the new user turn and has no assistant turn after it, and
    [last_success_request_ts] is what it was. *)
Theorem chat_none_reply w msg uid rt response rest :
  ~ gate_closed w rt ->
  completion w msg uid rt = ServiceReturns response ->
  choices response = None :: rest ->
  fst (chat w msg uid rt) =
    Raised (Exception "None Response received from OpenAI Chat Request.") /\
  (exists h,
     chat_history_db (self (snd (chat w msg uid rt))) !! uid = Some h /\
     h = UserChatHistory.get_current_chat (working_history w uid rt) msg
           (get_current_ts_at w (ticks rt)) /\
     last (UserChatHistory.chat_history h) =
       Some {| role := "user"; content := UserChatHistory.normalize msg |}) /\
  last_success_request_ts (self (snd (chat w msg uid rt))) =
    last_success_request_ts (self rt).
Proof.
  intros Ho Hc Hn.
  rewrite (chat_open _ _ _ _ Ho), Hc. simpl. rewrite Hn. simpl.
  split; [reflexivity|].
  split; [|reflexivity].
  rewrite lookup_insert_eq.
  eexists. split; [reflexivity|]. split; [reflexivity|].
  apply LedgerFacts.get_current_chat_last.
Qed.

Lemma chat_none_reply_witness :
  fst (chat (Scenario.replying None) "yo" 1 Scenario.fresh) =
    Raised (Exception "None Response received from OpenAI Chat Request.") /\
  (exists h,
     chat_history_db (self (snd (chat (Scenario.replying None) "yo" 1 Scenario.fresh)))
       !! 1 = Some h /\
     UserChatHistory.chat_history h = [system_turn; user_turn "Jirachi, yo"]).
Proof.
  destruct (chat_none_reply (Scenario.replying None) "yo" 1 Scenario.fresh
              {| choices := [None];
                 usage := Some {| prompt_tokens := 12; completion_tokens := 3 |} |}
              [] (fresh_gate_open None) eq_refl eq_refl)
    as (Hraise & (h & Hh & -> & _) & _).
  split; [exact Hraise|].
  eexists. split; [exact Hh|]. reflexivity.
Defined.

(** C2 as stated fails on the empty string: a reply whose first content is
    [""] is returned like any other, and recorded as an assistant turn. *)
Lemma chat_empty_string_reply :
  completion (Scenario.replying (Some "")) "yo" 1 Scenario.fresh =
    ServiceReturns
      {| choices := [Some ""];
         usage := Some {| prompt_tokens := 12; completion_tokens := 3 |} |} /\
  fst (chat (Scenario.replying (Some "")) "yo" 1 Scenario.fresh) = Returned "" /\
  fst (chat (Scenario.replying (Some "")) "yo" 1 Scenario.fresh) <>
    Raised (Exception "None Response received from OpenAI Chat Request.") /\
  UserChatHistory.chat_history <$>
    chat_history_db (self (snd (chat (Scenario.replying (Some "")) "yo" 1 Scenario.fresh)))
      !! 1 =
    Some [system_turn; user_turn "Jirachi, yo"; assistant_turn ""].
Proof.
  split; [reflexivity|].
  split; [reflexivity|].
  split; [discriminate|].
  reflexivity.
Qed.



End HandlerFacts.

(** ** The handler over its lifetime *)

Module LifecycleFacts.
Import OpenAIHandler Lifecycle.

(** The three ways a call ends, with the state each leaves. *)
Lemma chat_cases w msg uid rt :
  (gate_closed w rt /\
   chat w msg uid rt =
     (Raised too_frequent, {| ticks := S (ticks rt); self := self rt |})) \/
  (~ gate_closed w rt /\
   exists e n,
     (forall text, e <> FrequentRequestRateException text) /\
     (ticks_at_request uid rt <= n)%nat /\
     chat w msg uid rt =
       (Raised e, {| ticks := n; self := pending w msg uid rt |})) \/
  (~ gate_closed w rt /\
   exists reply,
     chat w msg uid rt =
       (Returned reply,
        {| ticks := S (ticks_at_request uid rt);
           self := answered w msg uid rt reply |})).
Proof.
  destruct (HandlerFacts.gate_closed_dec w rt) as [Hc|Ho].
  - left. split; [exact Hc|]. now apply HandlerFacts.chat_closed.
  - right. rewrite (HandlerFacts.chat_open _ _ _ _ Ho).
    destruct (completion w msg uid rt) as [text|response].
    + left. split; [exact Ho|]. eexists _, _.
      split; [|split; [|reflexivity]]; [discriminate | lia].
    + simpl. destruct (choices response) as [|[response_msg|] cs].
      * left. split; [exact Ho|]. eexists _, _.
        split; [|split; [|reflexivity]]; [discriminate | lia].
      * destruct (usage response) as [u|].
        -- right. split; [exact Ho|]. now eexists.
        -- left. split; [exact Ho|]. eexists _, _.
           split; [|split; [|reflexivity]]; [discriminate | lia].
      * left. split; [exact Ho|]. eexists _, _.
        split; [|split; [|reflexivity]]; [unfold none_response; discriminate | lia].
Qed.

Lemma ticks_at_request_gt uid rt : (ticks rt < ticks_at_request uid rt)%nat.
Proof. unfold ticks_at_request. destruct (_ !! _); lia. Qed.

Lemma clock_is_monotone c : monotone (Scenario.replying c).
Proof. intros n m H. simpl. unfold Scenario.clock. lia. Qed.

Lemma down_is_monotone : monotone Episodes.down.
Proof. intros n m H. simpl. unfold Scenario.clock. lia. Qed.

Lemma down_gate_open : ~ gate_closed Episodes.down Scenario.fresh.
Proof. unfold gate_closed. simpl. unfold Scenario.clock. lia. Qed.

(** X1: [chat] raises [FrequentRequestRateException] exactly when the
    request timestamp minus [last_success_request_ts] is at most
    [minimum_request_period]; the bound is inclusive, and no other path of
    [chat] raises that exception. *)
Theorem chat_refused_iff w msg uid rt :
  (exists text, fst (chat w msg uid rt) = Raised (FrequentRequestRateException text)) <->
  get_current_ts_at w (ticks rt) - last_success_request_ts (self rt)
    <= minimum_request_period (self rt).
Proof.
  split.
  - intros [text H]. now apply HandlerFacts.chat_too_frequent_inv in H.
  - intros H. exists "OpenAIHandler: Requests Too Frequent".
    now rewrite HandlerFacts.chat_closed.
Qed.

Lemma chat_refused_iff_witness :
  (exists text,
     fst (chat (Scenario.replying (Some "hi")) "again" 1 Scenario.after_one_chat) =
       Raised (FrequentRequestRateException text)) /\
  ~ (exists text,
       fst (chat (Scenario.replying (Some "hi")) "yo" 1 Scenario.fresh) =
         Raised (FrequentRequestRateException text)).
Proof.
  split.
  - apply (proj2 (chat_refused_iff (Scenario.replying (Some "hi")) "again" 1
                    Scenario.after_one_chat)).
    vm_compute. discriminate.
  - intros H.
    apply (proj1 (chat_refused_iff (Scenario.replying (Some "hi")) "yo" 1
                    Scenario.fresh)) in H.
    vm_compute in H. now apply H.
Defined.

(** X3: whenever [chat] raises anything but [FrequentRequestRateException],
    the user turn has already been recorded: the ledger under [uid] is what
    [get_current_chat] made of it, its last turn is the user's, and no
    assistant turn follows. *)
Theorem chat_failure_keeps_user_turn w msg uid rt e :
  fst (chat w msg uid rt) = Raised e ->
  (forall text, e <> FrequentRequestRateException text) ->
  exists h,
    chat_history_db (self (snd (chat w msg uid rt))) !! uid = Some h /\
    h = UserChatHistory.get_current_chat (working_history w uid rt) msg
          (get_current_ts_at w (ticks rt)) /\
    last (UserChatHistory.chat_history h) =
      Some {| role := "user"; content := UserChatHistory.normalize msg |}.
Proof.
  intros Hraise Hother.
  destruct (chat_cases w msg uid rt)
    as [[_ Heq] | [(_ & e' & n & _ & _ & Heq) | (_ & reply & Heq)]];
    rewrite Heq in *; simpl in *.
  - injection Hraise as <-.
    now destruct (Hother "OpenAIHandler: Requests Too Frequent").
  - eexists. unfold pending, with_db; simpl. rewrite lookup_insert_eq.
    split; [reflexivity|]. split; [reflexivity|].
    apply LedgerFacts.get_current_chat_last.
  - discriminate.
Qed.

Lemma chat_failure_keeps_user_turn_witness :
  exists h,
    chat_history_db (self (snd (chat Episodes.down "yo" 1 Scenario.fresh))) !! 1 = Some h /\
    UserChatHistory.chat_history h = [system_turn; user_turn "Jirachi, yo"].
Proof.
  destruct (chat_failure_keeps_user_turn Episodes.down "yo" 1 Scenario.fresh
              (ServiceError "timeout") eq_refl)
    as (h & Hh & -> & _).
  - discriminate.
  - eexists. split; [exact Hh|]. reflexivity.
Defined.

(** X4: [last_success_request_ts] moves on success only.  A call that
    raises, whatever it raises, leaves it alone, so a failed request does
    not delay the next one; a call that returns sets it to the response
    timestamp, which is also the new [last_communicate_ts] of the user's
    ledger. *)
Theorem last_success_moves_on_success w msg uid rt :
  (forall e,
     fst (chat w msg uid rt) = Raised e ->
     last_success_request_ts (self (snd (chat w msg uid rt))) =
       last_success_request_ts (self rt)) /\
  (forall reply,
     fst (chat w msg uid rt) = Returned reply ->
     last_success_request_ts (self (snd (chat w msg uid rt))) =
       get_current_ts_at w (ticks_at_request uid rt) /\
     UserChatHistory.last_communicate_ts <$>
       chat_history_db (self (snd (chat w msg uid rt))) !! uid =
       Some (get_current_ts_at w (ticks_at_request uid rt))).
Proof.
  destruct (chat_cases w msg uid rt)
    as [[_ Heq] | [(_ & e' & n & _ & _ & Heq) | (_ & reply' & Heq)]];
    rewrite Heq; simpl; (split; [intros e He | intros reply He]);
    try discriminate; try reflexivity.
  unfold answered, with_db; simpl. now rewrite lookup_insert_eq.
Qed.

Lemma last_success_moves_on_success_witness :
  last_success_request_ts (self (snd (chat Episodes.down "yo" 1 Scenario.fresh))) = 0 /\
  last_success_request_ts
    (self (snd (chat (Scenario.replying (Some "hi")) "yo" 1 Scenario.fresh))) = 12000.
Proof.
  split.
  - apply (proj1 (last_success_moves_on_success Episodes.down "yo" 1 Scenario.fresh)
             (ServiceError "timeout")).
    reflexivity.
  - apply (proj2 (last_success_moves_on_success (Scenario.replying (Some "hi")) "yo" 1
                    Scenario.fresh) "hi").
    reflexivity.
Defined.

(** X5: a call of [chat] for [uid] touches no other user's ledger, whatever
    its outcome. *)
Theorem chat_other_users_untouched w msg uid rt k :
  k <> uid ->
  chat_history_db (self (snd (chat w msg uid rt))) !! k =
  chat_history_db (self rt) !! k.
Proof.
  intros Hk.
  destruct (chat_cases w msg uid rt)
    as [[_ Heq] | [(_ & e' & n & _ & _ & Heq) | (_ & reply' & Heq)]];
    rewrite Heq; simpl; [reflexivity| |];
    unfold pending, answered, with_db; simpl;
    now rewrite lookup_insert_ne.
Qed.

Lemma chat_other_users_untouched_witness :
  chat_history_db
    (self (snd (chat (Scenario.replying (Some "hi")) "hello" 2 Episodes.idle))) !! 1 =
  chat_history_db (self Episodes.idle) !! 1.
Proof.
  apply (chat_other_users_untouched (Scenario.replying (Some "hi")) "hello" 2
           Episodes.idle 1).
  discriminate.
Defined.

(** X6: [chat] never evicts: every key of the table is still there after
    the call, the only key that can be new is [uid], and once the rate test
    is passed [uid] has a ledger whatever happens next. *)
Theorem chat_never_evicts w msg uid rt :
  dom (chat_history_db (self rt)) ⊆
    dom (chat_history_db (self (snd (chat w msg uid rt)))) /\
  dom (chat_history_db (self (snd (chat w msg uid rt)))) ⊆
    {[uid]} ∪ dom (chat_history_db (self rt)) /\
  (~ gate_closed w rt ->
   uid ∈ dom (chat_history_db (self (snd (chat w msg uid rt))))).
Proof.
  destruct (chat_cases w msg uid rt)
    as [[Hc Heq] | [(_ & e' & n & _ & _ & Heq) | (_ & reply' & Heq)]];
    rewrite Heq; simpl;
    unfold pending, answered, with_db; simpl;
    rewrite ?dom_insert_L; set_solver.
Qed.

Lemma chat_never_evicts_witness :
  (1 : Z) ∈ dom (chat_history_db (self (snd (chat Episodes.down "yo" 1 Scenario.fresh)))).
Proof.
  apply (proj2 (proj2 (chat_never_evicts Episodes.down "yo" 1 Scenario.fresh))).
  exact down_gate_open.
Defined.

(** X14: what the gate guarantees.  Under a clock that never runs
    backwards, each call that returns moves [last_success_request_ts]
    forward by more than [minimum_request_period]: two replies are never
    recorded within the period of one another. *)
Theorem successes_spaced w msg uid rt reply :
  monotone w ->
  fst (chat w msg uid rt) = Returned reply ->
  last_success_request_ts (self (snd (chat w msg uid rt))) >
    last_success_request_ts (self rt) + minimum_request_period (self rt).
Proof.
  intros Hmono Hok.
  destruct (HandlerFacts.chat_returned_inv _ _ _ _ _ Hok)
    as (Ho & response & rest & u & _ & _ & _ & Hrt).
  rewrite Hrt. unfold answered, with_db, with_last_success; simpl.
  unfold gate_closed in Ho.
  pose proof (ticks_at_request_gt uid rt) as Hgt.
  assert (get_current_ts_at w (ticks rt)
            <= get_current_ts_at w (ticks_at_request uid rt))
    by (apply Hmono; lia).
  lia.
Qed.

Lemma successes_spaced_witness :
  last_success_request_ts
    (self (snd (chat (Scenario.replying (Some "hi")) "still there?" 1 Episodes.idle)))
    > 12000 + 5000.
Proof.
  apply (successes_spaced (Scenario.replying (Some "hi")) "still there?" 1
           Episodes.idle "hi").
  - apply clock_is_monotone.
  - reflexivity.
Defined.

End LifecycleFacts.

(** ** Invariants of reachable handlers *)

Module ReachFacts.
Import OpenAIHandler Lifecycle.

Lemma well_formed_init uid now : well_formed uid (UserChatHistory.init uid now).
Proof. split; [reflexivity|]. exists []. now split. Qed.

Lemma dialogue_user_turn msg : dialogue_turn (user_turn (UserChatHistory.normalize msg)).
Proof. left. split; [reflexivity|]. apply LedgerFacts.normalize_starts_with. Qed.

Lemma well_formed_get_current_chat k h msg request_ts :
  well_formed k h ->
  well_formed k (UserChatHistory.get_current_chat h msg request_ts).
Proof.
  intros (Hk & rest & Hh & Hrest).
  split; [exact Hk|].
  rewrite LedgerFacts.get_current_chat_history, Hh.
  destruct (_ >? _); simpl.
  - eexists. split; [reflexivity|].
    constructor; [apply dialogue_user_turn | constructor].
  - eexists. split; [reflexivity|].
    apply Forall_app. split; [exact Hrest|].
    constructor; [apply dialogue_user_turn | constructor].
Qed.

Lemma well_formed_update_response k h response response_ts :
  well_formed k h ->
  well_formed k (UserChatHistory.update_response h response response_ts).
Proof.
  intros (Hk & rest & Hh & Hrest).
  split; [exact Hk|].
  unfold UserChatHistory.update_response; simpl. rewrite Hh. simpl.
  eexists. split; [reflexivity|].
  apply Forall_app. split; [exact Hrest|].
  constructor; [now right | constructor].
Qed.

Lemma stamped_later w rt rt' h :
  (ticks rt <= ticks rt')%nat -> stamped w rt h -> stamped w rt' h.
Proof. intros Hle (n & Hn & E). exists n. split; [lia | exact E]. Qed.

(** The ledger a call works on is as good as the stored ones. *)
Lemma working_history_inv w uid rt :
  handler_inv w rt ->
  well_formed uid (working_history w uid rt) /\
  exists n : nat,
    (n < ticks_at_request uid rt)%nat /\
    UserChatHistory.last_communicate_ts (working_history w uid rt) =
      get_current_ts_at w n.
Proof.
  intros Hinv. unfold working_history, ticks_at_request.
  destruct (chat_history_db (self rt) !! uid) as [h|] eqn:E.
  - destruct (Hinv _ _ E) as [Hwf (n & Hn & Hts)].
    split; [exact Hwf|]. exists n. split; [lia | exact Hts].
  - split; [apply well_formed_init|].
    exists (S (ticks rt)). split; [lia | reflexivity].
Qed.

Lemma handler_inv_chat w msg uid rt :
  handler_inv w rt -> handler_inv w (snd (chat w msg uid rt)).
Proof.
  intros Hinv.
  destruct (working_history_inv w uid rt Hinv) as [Hwf (m & Hm & Hts)].
  pose proof (LifecycleFacts.ticks_at_request_gt uid rt) as Hgt.
  destruct (LifecycleFacts.chat_cases w msg uid rt)
    as [[_ Heq] | [(_ & e' & n & _ & Hn & Heq) | (_ & reply & Heq)]];
    rewrite Heq; simpl; intros k h; simpl.
  - intros Hk. destruct (Hinv _ _ Hk) as [Hw Hs].
    split; [exact Hw|]. apply (stamped_later w rt); [simpl; lia | exact Hs].
  - unfold pending, with_db; simpl. rewrite lookup_insert.
    destruct (decide (uid = k)) as [<-|Hne].
    + intros [= <-]. split; [now apply well_formed_get_current_chat|].
      exists m. split; [simpl; lia | exact Hts].
    + intros Hk. destruct (Hinv _ _ Hk) as [Hw Hs].
      split; [exact Hw|]. apply (stamped_later w rt); [simpl; lia | exact Hs].
  - unfold answered, with_db; simpl. rewrite lookup_insert.
    destruct (decide (uid = k)) as [<-|Hne].
    + intros [= <-].
      split; [now apply well_formed_update_response, well_formed_get_current_chat|].
      exists (ticks_at_request uid rt). split; [simpl; lia | reflexivity].
    + intros Hk. destruct (Hinv _ _ Hk) as [Hw Hs].
      split; [exact Hw|]. apply (stamped_later w rt); [simpl; lia | exact Hs].
Qed.

Lemma handler_inv_reachable w b rt : reachable w b rt -> handler_inv w rt.
Proof.
  induction 1 as [n | rt Hr IH | rt msg uid Hr IH].
  - intros k h. simpl. now rewrite lookup_empty.
  - intros k h Hk. destruct (IH _ _ Hk) as [Hw Hs].
    split; [exact Hw|]. apply (stamped_later w rt); [simpl; lia | exact Hs].
  - now apply handler_inv_chat.
Qed.

Lemma model_chat w msg uid rt :
  model (self (snd (chat w msg uid rt))) = model (self rt).
Proof.
  destruct (LifecycleFacts.chat_cases w msg uid rt)
    as [[_ Heq] | [(_ & e' & n & _ & _ & Heq) | (_ & reply & Heq)]];
    now rewrite Heq.
Qed.

Lemma reachable_ticks w b rt :
  reachable w b rt ->
  forall n : nat, reachable w b {| ticks := n + ticks rt; self := self rt |}.
Proof.
  intros Hr n. induction n as [|n IH]; simpl.
  - now destruct rt.
  - exact (reachable_tick w b _ IH).
Qed.

Lemma reachable_fresh w : reachable w false Scenario.fresh.
Proof. exact (reachable_init w false 0). Qed.

Lemma reachable_after_one_chat :
  reachable (Scenario.replying (Some "hi")) false Scenario.after_one_chat.
Proof. apply reachable_chat, reachable_fresh. Qed.

Lemma reachable_idle :
  reachable (Scenario.replying (Some "hi")) false Episodes.idle.
Proof.
  exact (reachable_ticks _ _ _ reachable_after_one_chat 997).
Qed.

(** The reset of [get_current_chat] does not fire in a call made on a
    reachable handler under a clock that never runs backwards. *)
Lemma working_history_kept w b msg uid rt :
  reachable w b rt -> monotone w ->
  UserChatHistory.chat_history
    (UserChatHistory.get_current_chat (working_history w uid rt) msg
       (get_current_ts_at w (ticks rt))) =
  UserChatHistory.chat_history (working_history w uid rt)
    ++ [user_turn (UserChatHistory.normalize msg)].
Proof.
  intros Hr Hmono. apply handler_inv_reachable in Hr.
  rewrite LedgerFacts.get_current_chat_history.
  unfold working_history.
  destruct (chat_history_db (self rt) !! uid) as [h|] eqn:E.
  - destruct (Hr _ _ E) as [_ (n & Hn & Hts)].
    assert (Hle : get_current_ts_at w n <= get_current_ts_at w (ticks rt))
      by (apply Hmono; lia).
    destruct (_ >? _) eqn:Hgt; [|reflexivity].
    apply Z.gtb_gt in Hgt. unfold CHAT_RESET_TS in Hgt. lia.
  - simpl. now destruct (_ >? _).
Qed.



(** X8: every user turn a reachable handler holds starts with
    ["Jirachi, "]: no message gets into a ledger without the prefix. *)
Theorem stored_user_turns_prefixed w b rt k h t :
  reachable w b rt ->
  chat_history_db (self rt) !! k = Some h ->
  t ∈ UserChatHistory.chat_history h ->
  role t = "user" ->
  starts_with "Jirachi, " (content t).
Proof.
  intros Hr Hk Ht Hrole.
  destruct (handler_inv_reachable _ _ _ Hr _ _ Hk) as [(_ & rest & Hh & Hrest) _].
  rewrite Hh in Ht. apply elem_of_cons in Ht as [-> | Ht].
  - discriminate Hrole.
  - rewrite Forall_forall in Hrest.
    destruct (Hrest _ Ht) as [[_ Hp] | Ha]; [exact Hp|].
    rewrite Hrole in Ha. discriminate Ha.
Qed.

Lemma stored_user_turns_prefixed_witness :
  starts_with "Jirachi, " (content (user_turn "Jirachi, yo")).
Proof.
  eapply (stored_user_turns_prefixed (Scenario.replying (Some "hi")) false
            Scenario.after_one_chat 1 _ (user_turn "Jirachi, yo")).
  - exact reachable_after_one_chat.
  - reflexivity.
  - simpl. apply elem_of_cons. right. apply elem_of_cons. now left.
  - reflexivity.
Defined.

(** X9: the configuration is fixed at construction: in every state the
    handler reaches, the model is ["gpt-4"] if [using_gpt_4] was set and
    ["gpt-3.5-turbo"] otherwise, and the minimum request period is 5000. *)
Theorem configuration_fixed w b rt :
  reachable w b rt ->
  model (self rt) = (if b then "gpt-4" else "gpt-3.5-turbo") /\
  minimum_request_period (self rt) = 5000.
Proof.
  induction 1 as [n | rt Hr IH | rt msg uid Hr IH].
  - now split.
  - exact IH.
  - now rewrite model_chat, HandlerFacts.minimum_request_period_chat.
Qed.

Lemma configuration_fixed_witness :
  model (self Episodes.idle) = "gpt-3.5-turbo" /\
  minimum_request_period (self Episodes.idle) = 5000.
Proof.
  exact (configuration_fixed _ false Episodes.idle reachable_idle).
Defined.

(** The ledger of the caller after a call past the rate test. *)
Lemma history_after_chat w b msg uid rt :
  reachable w b rt ->
  monotone w ->
  ~ gate_closed w rt ->
  exists h',
    chat_history_db (self (snd (chat w msg uid rt))) !! uid = Some h' /\
    UserChatHistory.chat_history h' =
      UserChatHistory.chat_history (working_history w uid rt)
        ++ added_turns msg (fst (chat w msg uid rt)).
Proof.
  intros Hr Hmono Ho.
  pose proof (working_history_kept w b msg uid rt Hr Hmono) as Hkept.
  destruct (LifecycleFacts.chat_cases w msg uid rt)
    as [[Hc _] | [(_ & e' & n & _ & _ & Heq) | (_ & reply & Heq)]];
    [contradiction| |]; rewrite Heq;
    unfold pending, answered, with_db;
    cbn [fst snd self chat_history_db added_turns];
    rewrite lookup_insert_eq;
    eexists; (split; [reflexivity|]).
  - exact Hkept.
  - cbn [UserChatHistory.update_response UserChatHistory.chat_history].
    rewrite Hkept, <- app_assoc. reflexivity.
Qed.

(** X10: on a reachable handler, under a clock that never runs backwards,
    a call past the rate test adds to the user's ledger and takes nothing
    from it: the history becomes the one the call started from, then the
    user turn, then, if the call returned, the assistant turn.  The
    ten-minute reset does not happen, however long the user was silent. *)
Theorem chat_appends_only w b msg uid rt :
  reachable w b rt ->
  monotone w ->
  ~ gate_closed w rt ->
  UserChatHistory.chat_history <$>
    chat_history_db (self (snd (chat w msg uid rt))) !! uid =
  Some (UserChatHistory.chat_history (working_history w uid rt)
          ++ added_turns msg (fst (chat w msg uid rt))).
Proof.
  intros Hr Hmono Ho.
  destruct (history_after_chat w b msg uid rt Hr Hmono Ho) as (h' & Hh & Hhist).
  rewrite Hh. cbn [fmap option_fmap option_map].
  now rewrite Hhist.
Qed.

Lemma chat_appends_only_witness :
  get_current_ts_at (Scenario.replying (Some "hi")) (ticks Episodes.idle)
    - 12000 > CHAT_RESET_TS /\
  UserChatHistory.chat_history <$>
    chat_history_db
      (self (snd (chat (Scenario.replying (Some "hi")) "still there?" 1 Episodes.idle)))
      !! 1 =
  Some [system_turn; user_turn "Jirachi, yo"; assistant_turn "hi";
        user_turn "Jirachi, still there?"; assistant_turn "hi"].
Proof.
  split; [vm_compute; reflexivity|].
  rewrite (chat_appends_only (Scenario.replying (Some "hi")) false "still there?" 1
             Episodes.idle reachable_idle (LifecycleFacts.clock_is_monotone _)).
  - reflexivity.
  - vm_compute. intros H. now apply H.
Defined.

(** X11: on a reachable handler, under a clock that never runs backwards,
    no call of [chat] makes any ledger, of any user, lose a turn: each
    stored history is still there afterwards, possibly with turns added at
    its end. *)
Theorem chat_never_drops_turns w b msg uid rt k h :
  reachable w b rt ->
  monotone w ->
  chat_history_db (self rt) !! k = Some h ->
  exists h' more,
    chat_history_db (self (snd (chat w msg uid rt))) !! k = Some h' /\
    UserChatHistory.chat_history h' = UserChatHistory.chat_history h ++ more.
Proof.
  intros Hr Hmono Hk.
  pose proof (working_history_kept w b msg k rt Hr Hmono) as Hkept.
  unfold working_history in Hkept. rewrite Hk in Hkept.
  destruct (LifecycleFacts.chat_cases w msg uid rt)
    as [[_ Heq] | [(_ & e' & n & _ & _ & Heq) | (_ & reply & Heq)]];
    rewrite Heq; simpl.
  - exists h, []. split; [exact Hk | now rewrite app_nil_r].
  - unfold pending, with_db, working_history; simpl. rewrite lookup_insert.
    destruct (decide (uid = k)) as [->|Hne].
    + rewrite Hk. eexists _, _. split; [reflexivity | exact Hkept].
    + exists h, []. split; [exact Hk | now rewrite app_nil_r].
  - unfold answered, with_db, working_history; simpl. rewrite lookup_insert.
    destruct (decide (uid = k)) as [->|Hne].
    + rewrite Hk. eexists _, _. split; [reflexivity|].
      cbn [UserChatHistory.update_response UserChatHistory.chat_history].
      rewrite Hkept, <- app_assoc. reflexivity.
    + exists h, []. split; [exact Hk | now rewrite app_nil_r].
Qed.

Lemma chat_never_drops_turns_witness :
  exists h' more,
    chat_history_db
      (self (snd (chat (Scenario.replying (Some "hi")) "still there?" 1 Episodes.idle)))
      !! 1 = Some h' /\
    UserChatHistory.chat_history h' =
      [system_turn; user_turn "Jirachi, yo"; assistant_turn "hi"] ++ more.
Proof.
  destruct (chat_never_drops_turns (Scenario.replying (Some "hi")) false
              "still there?" 1 Episodes.idle 1 _
              reachable_idle (LifecycleFacts.clock_is_monotone _) eq_refl)
    as (h' & more & Hh & Hmore).
  exists h', more. split; [exact Hh | exact Hmore].
Defined.

(** X13: a turn left behind by a failed call stays in the conversation.
    On a reachable handler, under a clock that never runs backwards, when a
    call for [uid] raises past the rate test and the next call for [uid]
    returns, the ledger holds the two user turns one after the other and
    then the assistant turn. *)
Theorem failed_turn_stays w b msg1 msg2 uid rt e reply :
  reachable w b rt ->
  monotone w ->
  fst (chat w msg1 uid rt) = Raised e ->
  (forall text, e <> FrequentRequestRateException text) ->
  fst (chat w msg2 uid (snd (chat w msg1 uid rt))) = Returned reply ->
  UserChatHistory.chat_history <$>
    chat_history_db (self (snd (chat w msg2 uid (snd (chat w msg1 uid rt))))) !! uid =
  Some (UserChatHistory.chat_history (working_history w uid rt)
          ++ [ user_turn (UserChatHistory.normalize msg1);
               user_turn (UserChatHistory.normalize msg2);
               assistant_turn reply ]).
Proof.
  intros Hr Hmono Hfail Hother Hok.
  assert (Ho1 : ~ gate_closed w rt).
  { intros Hc. rewrite (HandlerFacts.chat_closed _ _ _ _ Hc) in Hfail.
    injection Hfail as <-.
    now destruct (Hother "OpenAIHandler: Requests Too Frequent"). }
  destruct (history_after_chat w b msg1 uid rt Hr Hmono Ho1) as (h1 & Hh1 & Hhist1).
  rewrite Hfail in Hhist1.
  destruct (HandlerFacts.chat_returned_inv _ _ _ _ _ Hok) as [Ho2 _].
  destruct (history_after_chat w b msg2 uid _ (reachable_chat w b rt msg1 uid Hr)
              Hmono Ho2) as (h2 & Hh2 & Hhist2).
  rewrite Hok in Hhist2.
  unfold working_history in Hhist2 at 1. rewrite Hh1 in Hhist2.
  rewrite Hh2. cbn [fmap option_fmap option_map].
  rewrite Hhist2, Hhist1, <- app_assoc. reflexivity.
Qed.

Lemma flaky_is_monotone : monotone Episodes.flaky.
Proof. intros n m H. simpl. lia. Qed.

Lemma failed_turn_stays_witness :
  fst (chat Episodes.flaky "anyone?" 1 Scenario.fresh) = Raised (ServiceError "timeout") /\
  UserChatHistory.chat_history <$>
    chat_history_db
      (self (snd (chat Episodes.flaky "and now?" 1
                    (snd (chat Episodes.flaky "anyone?" 1 Scenario.fresh))))) !! 1 =
  Some [ system_turn; user_turn "Jirachi, anyone?"; user_turn "Jirachi, and now?";
         assistant_turn "here I am" ].
Proof.
  split; [reflexivity|].
  rewrite (failed_turn_stays Episodes.flaky false "anyone?" "and now?" 1
             Scenario.fresh (ServiceError "timeout") "here I am").
  - reflexivity.
  - apply reachable_fresh.
  - exact flaky_is_monotone.
  - reflexivity.
  - discriminate.
  - reflexivity.
Defined.

End ReachFacts.

(** ** The prefix, once more *)

Module PrefixFacts.
Import UserChatHistory.

(** X12: what [get_current_chat] stores always starts with ["Jirachi, "];
    putting a stored content through the same normalisation again leaves
    it alone, so the prefix is never doubled; and a message comes out
    unchanged exactly when it already started with the prefix. *)
Theorem normalize_settles msg :
  starts_with "Jirachi, " (normalize msg) /\
  normalize (normalize msg) = normalize msg /\
  (normalize msg = msg <-> starts_with "Jirachi, " msg).
Proof.
  split; [apply LedgerFacts.normalize_starts_with|].
  split; [apply LedgerFacts.normalize_prefixed, LedgerFacts.normalize_starts_with|].
  split.
  - intros <-. apply LedgerFacts.normalize_starts_with.
  - apply LedgerFacts.normalize_prefixed.
Qed.

Lemma normalize_settles_witness :
  normalize "Jirachi, make it snow" = "Jirachi, make it snow" /\
  ~ starts_with "Jirachi, " "jirachi, make it snow".
Proof.
  split.
  - apply (proj2 (proj2 (proj2 (normalize_settles "Jirachi, make it snow")))).
    apply prefix_starts_with. reflexivity.
  - intros H.
    apply (proj2 (proj2 (proj2 (normalize_settles "jirachi, make it snow")))) in H.
    discriminate H.
Defined.

End PrefixFacts.
